(** * OpenAiLLM: prompt construction, model binding and error classification

    A shallow embedding of [src/llms/openai.ts] (class [OpenAiLLM]).

    - JavaScript strings are modelled by [string] (a sequence of code
      units); [String.prototype.includes] is [includes].
    - The completion SDK is outside the repository.  Its constructor
      [new ChatOpenAI] and the chat model's reply inside [chain.invoke] are
      opaque: the first is a parameter that may reject its fields, the
      second is answered by an oracle stored in the machine state, which
      also records every request.  What [chain.invoke] resolves to is the
      reply as the stages behind the model leave it.
    - The base class [LLM] is outside the sources; its method
      [formatOutputTags] is a field of the base-class record, so nothing is
      assumed of it.
    - [async]/[await] is sequential for a single call, so [generateTags] is
      a computation in a state-and-exception monad over [Machine]. *)

From Stdlib Require Import String Ascii List Bool Arith ZArith QArith Lia.
Import ListNotations.

Local Close Scope Q_scope.
Local Open Scope string_scope.
Local Open Scope list_scope.

(* ================================================================= *)
(** ** JavaScript strings *)

Module Js.

(** [s.includes(searchString)]: [searchString] occurs in [s] at some
    position. *)
Fixpoint includes (s searchString : string) : bool :=
  if String.prefix searchString s then true
  else match s with
       | EmptyString => false
       | String _ rest => includes rest searchString
       end.

(** The double quote character, which the prompt text uses. *)
Definition quote : string := String "034"%char EmptyString.

(** The line feed written [\n] in the source. *)
Definition LF : string := String "010"%char EmptyString.

(** A value found under a key of an object, as far as this class can
    tell values apart: [undefined], an array of strings, or anything
    else, kept as its JSON text. *)
Inductive Value : Type :=
| undefined
| array (items : list string)
| other (json : string).

(** An [Error] object; only its [message] is ever read. *)
Record Error : Type := new_Error { message : string }.

(** How a statement or call completes. *)
Inductive Completion (A : Type) : Type :=
| Normal (value : A)
| Thrown (error : Error).

Arguments Normal {A} value.
Arguments Thrown {A} error.

End Js.

Import Js.

(* ================================================================= *)
(** ** The f-string template language of the prompt library

    [fromTemplate] reads a template in which [{name}] is a placeholder
    and a doubled brace stands for one literal brace.  Formatting replaces
    every placeholder by the value bound to its name; the value is
    inserted as it is and is not read as a template again. *)

Module FString.

Inductive Node : Type :=
| literal (text : string)
| variable (name : string).

Definition InputValues : Type := list (string * string).

Fixpoint lookup (values : InputValues) (key : string) : option string :=
  match values with
  | [] => None
  | (k, v) :: rest => if String.eqb k key then Some v else lookup rest key
  end.

(** Scanner state: outside a placeholder, or collecting the name of one.
    In both states the characters read so far are kept in reverse. *)
Inductive Mode : Type :=
| InText (seen : list ascii)
| InName (seen : list ascii).

Definition text_of (seen : list ascii) : string :=
  string_of_list_ascii (rev seen).

Definition flush (seen : list ascii) (nodes : list Node) : list Node :=
  match seen with
  | [] => nodes
  | _ => literal (text_of seen) :: nodes
  end.

(** [scan s mode] is the node list of [s], or [None] when the template is
    malformed (an unclosed [{] or a single [}]). *)
Fixpoint scan (s : string) (mode : Mode) : option (list Node) :=
  match mode, s with
  | InText seen, EmptyString => Some (flush seen [])
  | InName _, EmptyString => None
  | InName seen, String "}" rest =>
      option_map (cons (variable (text_of seen))) (scan rest (InText []))
  | InName seen, String c rest => scan rest (InName (c :: seen))
  | InText seen, String "{" (String "{" rest) =>
      option_map (fun nodes => flush seen (literal "{" :: nodes))
                 (scan rest (InText []))
  | InText seen, String "}" (String "}" rest) =>
      option_map (fun nodes => flush seen (literal "}" :: nodes))
                 (scan rest (InText []))
  | InText seen, String "{" rest =>
      option_map (flush seen) (scan rest (InName []))
  | InText _, String "}" _ => None
  | InText seen, String c rest => scan rest (InText (c :: seen))
  end.

Definition parse (template : string) : option (list Node) :=
  scan template (InText []).

(** Left-to-right concatenation of the nodes; [None] when a placeholder
    has no value. *)
Fixpoint interpolate (nodes : list Node) (values : InputValues)
  : option string :=
  match nodes with
  | [] => Some EmptyString
  | literal text :: rest =>
      option_map (append text) (interpolate rest values)
  | variable name :: rest =>
      match lookup values name with
      | None => None
      | Some v => option_map (append v) (interpolate rest values)
      end
  end.

Definition format (template : string) (values : InputValues)
  : option string :=
  match parse template with
  | None => None
  | Some nodes => interpolate nodes values
  end.

End FString.

Import FString.

(* ================================================================= *)
(** ** Values built by the class *)

Inductive Role : Type := system | human.

(** A message prompt template ([SystemMessagePromptTemplate] or
    [HumanMessagePromptTemplate]) and a filled chat message. *)
Record MessagePromptTemplate : Type :=
  fromTemplate { template_role : Role; template : string }.

Record ChatMessage : Type :=
  mkMessage { role : Role; content : string }.

Definition ChatPromptTemplate : Type := list MessagePromptTemplate.

(** [prompt.formatMessages(values)]: every message template is filled
    with the same input values. *)
Fixpoint formatMessages (p : ChatPromptTemplate) (values : InputValues)
  : option (list ChatMessage) :=
  match p with
  | [] => Some []
  | m :: rest =>
      match FString.format (template m) values,
            formatMessages rest values with
      | Some text, Some msgs => Some (mkMessage (template_role m) text :: msgs)
      | _, _ => None
      end
  end.

(** The fields handed to [new ChatOpenAI]; [fields_modelName] is the
    option the source writes [modelName], a name kept here for the field
    of the base class. *)
Record Configuration : Type :=
  { config_baseURL : option string;
    timeout : Z }.

Record ChatOpenAI : Type :=
  { fields_modelName : string;
    openAIApiKey : string;
    temperature : Q;
    configuration : Configuration }.

(** A tool declaration; [TagDocumentTool] lives in [src/tool.ts] and only
    its [name] is read here. *)
Record StructuredTool : Type := { name : string }.

Record ToolChoice : Type :=
  { type : string;
    function_name : string }.

(** The runnables that [getModel] and [generateTags] assemble. *)
Inductive Runnable : Type :=
| RunnableModel (m : ChatOpenAI)
| RunnableBinding (m : ChatOpenAI) (tools : list StructuredTool)
                  (tool_choice : ToolChoice)
| JsonOutputKeyToolsParser (keyName : string) (returnSingle : bool)
| RunnablePrompt (p : ChatPromptTemplate)
| RunnableSequence (first last : Runnable).

(** [a.pipe(b)] *)
Definition pipe (a b : Runnable) : Runnable := RunnableSequence a b.

(** [model.bind({tools, tool_choice})]; only a chat model is ever bound. *)
Definition bind_tools (m : ChatOpenAI) (tools : list StructuredTool)
  (choice : ToolChoice) : Runnable :=
  RunnableBinding m tools choice.

(** The chat models a runnable calls. *)
Fixpoint chat_models (r : Runnable) : list ChatOpenAI :=
  match r with
  | RunnableModel m => [m]
  | RunnableBinding m _ _ => [m]
  | JsonOutputKeyToolsParser _ _ => []
  | RunnablePrompt _ => []
  | RunnableSequence a b => chat_models a ++ chat_models b
  end.

(** The reply of the chat model: its text and its tool calls, each with
    the function's name and the arguments object, of which the keys
    [tags] and [newTags] are the ones ever read. *)
Record ToolArguments : Type :=
  { tags : Value;
    newTags : Value }.

Record ToolCall : Type :=
  { call_name : string;
    call_args : ToolArguments }.

Record AIMessage : Type :=
  { ai_content : string;
    tool_calls : list ToolCall }.

(** What [chain.invoke] can resolve to: the chat message itself, the
    arguments of one tool call, the list of the arguments of several, or
    [undefined]. *)
Inductive Response : Type :=
| response_message (m : AIMessage)
| response_arguments (a : ToolArguments)
| response_list (l : list ToolArguments)
| response_undefined.

(** The stages of a chain that come behind its chat model.  The prompt,
    the model and the binding leave the reply as it is.  The key-scoped
    parser keeps the tool calls whose name is the key and gives
    [undefined] when there is none, else the arguments of the first
    ([returnSingle]) or of all; the class never feeds it anything but a
    chat message. *)
Fixpoint resolve (r : Runnable) (x : Response) : Response :=
  match r with
  | RunnableModel _ => x
  | RunnableBinding _ _ _ => x
  | RunnablePrompt _ => x
  | JsonOutputKeyToolsParser keyName returnSingle =>
      match x with
      | response_message m =>
          match filter (fun c => String.eqb (call_name c) keyName)
                       (tool_calls m) with
          | [] => response_undefined
          | c :: more =>
              if returnSingle then response_arguments (call_args c)
              else response_list (map call_args (c :: more))
          end
      | _ => response_undefined
      end
  | RunnableSequence first last => resolve last (resolve first x)
  end.

(** [response.tags] and [response.newTags]: a chat message and an array
    have neither key, and reading a key of [undefined] throws the
    engine's TypeError. *)
Definition property (response : Response) (key : string)
  (of_arguments : ToolArguments -> Value) : Completion Value :=
  match response with
  | response_arguments a => Normal (of_arguments a)
  | response_message _ => Normal undefined
  | response_list _ => Normal undefined
  | response_undefined =>
      Thrown (new_Error ("Cannot read properties of undefined (reading '"
                         ++ key ++ "')"))
  end.

(** ** The base class [LLM] ([src/llms/base.ts])

    The fields of the base class that [OpenAiLLM] reads. *)
Record ModelInfo : Type :=
  { modelId : string;
    toolUse : bool }.

(** [formatOutputTags] is the method the class inherits; what it returns
    or throws for the two values it is given is the base class's matter. *)
Record LLM : Type :=
  { modelInfo : ModelInfo;
    apiKey : string;
    modelName : string;
    formatOutputTags : Value -> Value -> Completion (list string) }.

(** ** The class [OpenAiLLM] *)

Record OpenAiLLM : Type :=
  { super : LLM;
    baseURL : option string;
    model : Runnable;
    prompt : ChatPromptTemplate }.

Definition systemMessage : string :=
  "
You are an expert at categorizing OSINT technical texts using tags. Your task is to create tags for the mentions of technologies, company names, suppliers and other key information. Tags are used to categorize and organize documents based on its content. The format of a tag is a pound sign followed by the category "
  ++ quote ++ "#<category>" ++ quote ++ ", for example "
  ++ quote ++ "#networking" ++ quote ++ ".  
Here are some existing tags that you can use to categorize the document.

EXISTING TAGS:
```
{tagsString}
```

Tag the users document based on its content. You can use EXISTING TAGS but also create  NEW TAGS that you come up with on your own. Ensure that the tags accurately reflect the document's primary focus and themes.
".

Definition humanMessage : string :=
  "DOCUMENT:" ++ LF ++ "```{document}```".

Definition getPrompt : ChatPromptTemplate :=
  [ fromTemplate system systemMessage;
    fromTemplate human humanMessage ].

Section Construction.

(** [new ChatOpenAI(fields)] either throws or yields a model holding the
    fields it was given; which fields the SDK rejects is its own matter. *)
Variable ChatOpenAI_rejects : ChatOpenAI -> option Error.

(** [new TagDocumentTool()], declared in [src/tool.ts]. *)
Variable tagDocumentTool : StructuredTool.

(** [super(modelId, apiKey)], declared in [src/llms/base.ts]. *)
Variable LLM_constructor : string -> string -> LLM.

Definition new_ChatOpenAI (fields : ChatOpenAI) : Completion ChatOpenAI :=
  match ChatOpenAI_rejects fields with
  | Some error => Thrown error
  | None => Normal fields
  end.

Definition getModel (this_super : LLM) (this_baseURL : option string)
  : Completion Runnable :=
  match new_ChatOpenAI
          {| fields_modelName := modelId (modelInfo this_super);
             openAIApiKey := apiKey this_super;
             temperature := 0.0;
             configuration := {| config_baseURL := this_baseURL;
                                 timeout := 10000 |} |} with
  | Thrown error =>
      if includes (message error) "OpenAI or Azure OpenAI API key not found"
      then Thrown (new_Error "Incorrect OpenAI API key. Please check your API key.")
      else Thrown (new_Error "Error while instantiating model.")
  | Normal model =>
      if Bool.eqb (toolUse (modelInfo this_super)) true then
        let modelWithTool :=
          bind_tools model [tagDocumentTool]
            {| type := "function";
               function_name := name tagDocumentTool |} in
        let outputParser :=
          JsonOutputKeyToolsParser (name tagDocumentTool) true in
        let modelWithOutputParser := pipe modelWithTool outputParser in
        Normal modelWithOutputParser
      else Normal (RunnableModel model)
  end.

(** [new OpenAiLLM(modelId, apiKey, baseURL)] *)
Definition new_OpenAiLLM (modelId apiKey : string)
  (baseURL : option string) : Completion OpenAiLLM :=
  let this_super := LLM_constructor modelId apiKey in
  let this_prompt := getPrompt in
  match getModel this_super baseURL with
  | Thrown error => Thrown error
  | Normal this_model =>
      Normal {| super := this_super;
                baseURL := baseURL;
                model := this_model;
                prompt := this_prompt |}
  end.

End Construction.

(* ================================================================= *)
(** ** The machine on which [generateTags] runs *)

(** One call of [chain.invoke]. *)
Record Request : Type :=
  { chain : Runnable;
    input : InputValues }.

(** What the SDK makes of a request: the chat model's reply, its tool
    calls read as the parser reads them, or the error that the invocation
    throws at whatever stage. *)
Definition Outcome : Type := Completion AIMessage.

Inductive ConsoleLine : Type :=
| console_debug_line (label : string) (response : Response)
| console_error_line (label : string) (text : string).

(** The instance, the tag catalog that [getTagsString] reads, the SDK's
    answer to the n-th request ever sent, the requests sent so far and the
    console. *)
Record Machine : Type :=
  { this : OpenAiLLM;
    tagCatalog : string;
    endpoint : nat -> Request -> Outcome;
    sent : list Request;
    console : list ConsoleLine }.

Module Eff.

(** State and exceptions: a computation maps a machine to a completion
    and the machine it leaves behind. *)
Definition t (A : Type) : Type := Machine -> Completion A * Machine.

Definition ret {A} (a : A) : t A := fun s => (Normal a, s).

Definition throw {A} (e : Error) : t A := fun s => (Thrown e, s).

Definition bind {A B} (m : t A) (k : A -> t B) : t B :=
  fun s =>
    match m s with
    | (Normal a, s') => k a s'
    | (Thrown e, s') => (Thrown e, s')
    end.

(** [try { body } catch (error) { handler }] *)
Definition try_catch {A} (body : t A) (handler : Error -> t A) : t A :=
  fun s =>
    match body s with
    | (Normal a, s') => (Normal a, s')
    | (Thrown e, s') => handler e s'
    end.

(** A completion that touches no state. *)
Definition lift {A} (c : Completion A) : t A := fun s => (c, s).

Definition get : t Machine := fun s => (Normal s, s).

Definition modify (f : Machine -> Machine) : t unit :=
  fun s => (Normal tt, f s).

End Eff.

Notation "x <- m ;; k" := (Eff.bind m (fun x => k))
  (at level 61, m at next level, right associativity).
Notation "m ;;; k" := (Eff.bind m (fun _ => k))
  (at level 61, right associativity).

Definition get_this : Eff.t OpenAiLLM :=
  s <- Eff.get ;; Eff.ret (this s).

(** [getTagsString()] from [src/helpers/get_tags.ts]: reads the catalog. *)
Definition getTagsString : Eff.t string :=
  s <- Eff.get ;; Eff.ret (tagCatalog s).

Definition console_debug (label : string) (r : Response) : Eff.t unit :=
  Eff.modify (fun s =>
    {| this := this s; tagCatalog := tagCatalog s; endpoint := endpoint s;
       sent := sent s;
       console := console s ++ [console_debug_line label r] |}).

Definition console_error (label text : string) : Eff.t unit :=
  Eff.modify (fun s =>
    {| this := this s; tagCatalog := tagCatalog s; endpoint := endpoint s;
       sent := sent s;
       console := console s ++ [console_error_line label text] |}).

(** [await chain.invoke(values)]: the request is recorded; the SDK's
    error is thrown, or its reply is passed through the stages of the
    chain. *)
Definition invoke (c : Runnable) (values : InputValues) : Eff.t Response :=
  fun s =>
    let request := {| chain := c; input := values |} in
    (match endpoint s (length (sent s)) request with
     | Normal reply => Normal (resolve c (response_message reply))
     | Thrown error => Thrown error
     end,
     {| this := this s; tagCatalog := tagCatalog s; endpoint := endpoint s;
        sent := sent s ++ [request];
        console := console s |}).

(** [this.formatOutputTags(response.tags, response.newTags)]: the two
    keys are read, left to right, and the inherited method is called. *)
Definition formatOutputTags_of (self : OpenAiLLM) (response : Response)
  : Completion (list string) :=
  match property response "tags" tags with
  | Thrown error => Thrown error
  | Normal tags_value =>
      match property response "newTags" newTags with
      | Thrown error => Thrown error
      | Normal newTags_value =>
          formatOutputTags (super self) tags_value newTags_value
      end
  end.

(** The [catch (error)] block of [generateTags]. *)
Definition generateTags_catch (error : Error) : Eff.t (list string) :=
  console_error "Error while invoking chain:" (message error) ;;;
  self <- get_this ;;
  if includes (message error) "Incorrect API key" then
    Eff.throw (new_Error "Incorrect API key. Please check your API key.")
  else if includes (message error) "Rate limit reached for requests" then
    Eff.throw (new_Error "You are sending requests too quickly. Please pace your requests or read OpenAI's Rate limit guide.")
  else if includes (message error) "You exceeded your current quota, please check your plan and billing details" then
    Eff.throw (new_Error "You have run out of OpenAI credits or hit your maximum monthly spend.")
  else if includes (message error) "The server had an error while processing your request" then
    Eff.throw (new_Error "Issue on OpenAI's servers. Please retry your request after a brief wait.")
  else if includes (message error) "The engine is currently overloaded, please try again later" then
    Eff.throw (new_Error "OpenAI's servers are experiencing high traffic. Please retry your requests after a brief wait.")
  else if includes (message error) "Please reduce the length" then
    Eff.throw (new_Error "Your document is too long. Please reduce the length of your document.")
  else if includes (message error) "Invalid URL" then
    Eff.throw (new_Error "Invalid custom base URL provided. Please check your custom base URL.")
  else if includes (message error) "Connection error"
          && (match baseURL self with None => false | Some _ => true end)
          && (includes (modelName (super self)) "gpt-4"
              || includes (modelName (super self)) "gpt-3.5-turbo") then
    Eff.throw (new_Error "Could not connect to custom base URL provided. Please check your custom base URL.")
  else
    console_error "Error while generating tags:" (message error) ;;;
    Eff.throw (new_Error "Error while generating tags.").

Definition generateTags (documentText : string) : Eff.t (list string) :=
  self <- get_this ;;
  let chain := pipe (RunnablePrompt (prompt self)) (model self) in
  tagsString <- getTagsString ;;
  Eff.try_catch
    (response <- invoke chain [("tagsString", tagsString);
                               ("document", documentText)] ;;
     console_debug "LLM Response: " response ;;;
     self <- get_this ;;
     tags <- Eff.lift (formatOutputTags_of self response) ;;
     Eff.ret tags)
    generateTags_catch.

(** Running [generateTags] on a list of documents, one call after the
    other, whatever each call's completion. *)
Fixpoint generateTags_each (documents : list string) (s : Machine)
  : list (Completion (list string)) * Machine :=
  match documents with
  | [] => ([], s)
  | d :: rest =>
      let (c, s') := generateTags d s in
      let (cs, s'') := generateTags_each rest s' in
      (c :: cs, s'')
  end.

(* ================================================================= *)
(** ** The classification table

    The source throws plain [Error] objects, told apart by their message
    only.  The spec names nine kinds; [user_message] lists the message
    that stands for each kind, and [triggers] lists, in the order of the
    [else if] chain, the substring each branch looks for. *)

Inductive ErrorKind : Type :=
| InvalidCredentials
| RateLimited
| QuotaExhausted
| ServerFault
| ServerOverloaded
| InputTooLarge
| BadEndpoint
| UnreachableEndpoint
| GenericFailure.

Definition all_kinds : list ErrorKind :=
  [ InvalidCredentials; RateLimited; QuotaExhausted; ServerFault;
    ServerOverloaded; InputTooLarge; BadEndpoint; UnreachableEndpoint;
    GenericFailure ].

Definition user_message (k : ErrorKind) : string :=
  match k with
  | InvalidCredentials => "Incorrect API key. Please check your API key."
  | RateLimited => "You are sending requests too quickly. Please pace your requests or read OpenAI's Rate limit guide."
  | QuotaExhausted => "You have run out of OpenAI credits or hit your maximum monthly spend."
  | ServerFault => "Issue on OpenAI's servers. Please retry your request after a brief wait."
  | ServerOverloaded => "OpenAI's servers are experiencing high traffic. Please retry your requests after a brief wait."
  | InputTooLarge => "Your document is too long. Please reduce the length of your document."
  | BadEndpoint => "Invalid custom base URL provided. Please check your custom base URL."
  | UnreachableEndpoint => "Could not connect to custom base URL provided. Please check your custom base URL."
  | GenericFailure => "Error while generating tags."
  end.

Definition error_of (k : ErrorKind) : Error := new_Error (user_message k).

(** The substrings of the [else if] chain, in its order. *)
Definition triggers : list (string * ErrorKind) :=
  [ ("Incorrect API key", InvalidCredentials);
    ("Rate limit reached for requests", RateLimited);
    ("You exceeded your current quota, please check your plan and billing details", QuotaExhausted);
    ("The server had an error while processing your request", ServerFault);
    ("The engine is currently overloaded, please try again later", ServerOverloaded);
    ("Please reduce the length", InputTooLarge);
    ("Invalid URL", BadEndpoint);
    ("Connection error", UnreachableEndpoint) ].

(** The substrings as the spec's table abbreviates them. *)
Definition spec_table : list (string * ErrorKind) :=
  [ ("Incorrect API key", InvalidCredentials);
    ("Rate limit reached", RateLimited);
    ("exceeded your current quota", QuotaExhausted);
    ("server had an error", ServerFault);
    ("engine is currently overloaded", ServerOverloaded);
    ("reduce the length", InputTooLarge);
    ("Invalid URL", BadEndpoint) ].

(** The extra condition of the last branch: a custom base URL is set and
    the model name is of the gpt-4 or gpt-3.5-turbo family. *)
Definition custom_endpoint_family (self : OpenAiLLM) : bool :=
  (match baseURL self with None => false | Some _ => true end)
  && (includes (modelName (super self)) "gpt-4"
      || includes (modelName (super self)) "gpt-3.5-turbo").

Definition guard (self : OpenAiLLM) (k : ErrorKind) : bool :=
  match k with
  | UnreachableEndpoint => custom_endpoint_family self
  | _ => true
  end.

Definition contains_trigger (msg : string) (b : string * ErrorKind) : bool :=
  includes msg (fst b).

Definition fires (self : OpenAiLLM) (msg : string) (b : string * ErrorKind)
  : bool :=
  includes msg (fst b) && guard self (snd b).

(** The table read as the spec words it: the first entry that fires
    decides, and the generic kind is the fallback. *)
Definition classify (self : OpenAiLLM) (msg : string) : ErrorKind :=
  match find (fires self msg) triggers with
  | Some (_, k) => k
  | None => GenericFailure
  end.

(** The request [generateTags] sends from machine [s] for a document. *)
Definition request_of (s : Machine) (documentText : string) : Request :=
  {| chain := pipe (RunnablePrompt (prompt (this s))) (model (this s));
     input := [("tagsString", tagCatalog s); ("document", documentText)] |}.

(** The SDK's completion of that request. *)
Definition remote_call (s : Machine) (documentText : string) : Outcome :=
  endpoint s (length (sent s)) (request_of s documentText).

(** ** Sample instances and machines *)

Definition sample_tool : StructuredTool := {| name := "tagDocument" |}.

Definition sample_rejects (fields : ChatOpenAI) : option Error :=
  if String.eqb (openAIApiKey fields) EmptyString
  then Some (new_Error "OpenAI or Azure OpenAI API key not found")
  else None.

(** A base class whose method spreads its two arguments into one array. *)
Definition sample_formatOutputTags (tags newTags : Value)
  : Completion (list string) :=
  match tags, newTags with
  | array t, array n => Normal (t ++ n)
  | array _, _ => Thrown (new_Error "newTags is not iterable")
  | _, _ => Thrown (new_Error "tags is not iterable")
  end.

Definition sample_LLM_constructor (tool : bool) (id key : string) : LLM :=
  {| modelInfo := {| modelId := id; toolUse := tool |};
     apiKey := key;
     modelName := id;
     formatOutputTags := sample_formatOutputTags |}.

Definition sample_fields (id key : string) (url : option string)
  : ChatOpenAI :=
  {| fields_modelName := id;
     openAIApiKey := key;
     temperature := 0.0;
     configuration := {| config_baseURL := url; timeout := 10000 |} |}.

(** The instance that [new OpenAiLLM(id, "sk-test", url)] builds over the
    sample base class and SDK. *)
Definition sample_instance (tool : bool) (id : string) (url : option string)
  : OpenAiLLM :=
  {| super := sample_LLM_constructor tool id "sk-test";
     baseURL := url;
     model :=
       if tool then
         RunnableSequence
           (RunnableBinding (sample_fields id "sk-test" url) [sample_tool]
              {| type := "function"; function_name := "tagDocument" |})
           (JsonOutputKeyToolsParser "tagDocument" true)
       else RunnableModel (sample_fields id "sk-test" url);
     prompt := getPrompt |}.

Definition failing (msg : string) : nat -> Request -> Outcome :=
  fun _ _ => Thrown (new_Error msg).

Definition answering (reply : AIMessage) : nat -> Request -> Outcome :=
  fun _ _ => Normal reply.

(** A reply that calls the sample tool with two arrays, and a reply in
    plain text. *)
Definition sample_tool_reply : AIMessage :=
  {| ai_content := EmptyString;
     tool_calls :=
       [{| call_name := "tagDocument";
           call_args := {| tags := array ["#osint"];
                           newTags := array ["#networking"; "#vendor"] |} |}] |}.

Definition sample_text_reply (text : string) : AIMessage :=
  {| ai_content := text; tool_calls := [] |}.

Definition boot (o : OpenAiLLM) (catalog : string)
  (sdk : nat -> Request -> Outcome) : Machine :=
  {| this := o; tagCatalog := catalog; endpoint := sdk;
     sent := []; console := [] |}.

(** ** Sequences of calls, read off the SDK's answers *)

(** The completion of the [catch] block for a caught error. *)
Definition rethrown (self : OpenAiLLM) (e : Error)
  : Completion (list string) :=
  Thrown (error_of (classify self (message e))).

(** What is thrown inside the [try] block once the SDK has completed the
    request: the SDK's error, or the error of reading the response and
    formatting its tags, if any. *)
Definition thrown_in_try (self : OpenAiLLM) (c : Runnable) (o : Outcome)
  : option Error :=
  match o with
  | Thrown e => Some e
  | Normal reply =>
      match formatOutputTags_of self (resolve c (response_message reply)) with
      | Thrown e => Some e
      | Normal _ => None
      end
  end.

(** What a call makes of the SDK's completion of its request. *)
Definition completion_of (self : OpenAiLLM) (c : Runnable) (o : Outcome)
  : Completion (list string) :=
  match o with
  | Thrown e => rethrown self e
  | Normal reply =>
      match formatOutputTags_of self (resolve c (response_message reply)) with
      | Normal tags => Normal tags
      | Thrown e => rethrown self e
      end
  end.

(** The completions of calls for [documents], when the first of them is
    the request number [n] and the instance and the catalog stay put. *)
Fixpoint completions_from (self : OpenAiLLM) (catalog : string)
  (sdk : nat -> Request -> Outcome) (n : nat) (documents : list string)
  : list (Completion (list string)) :=
  match documents with
  | [] => []
  | d :: rest =>
      let c := pipe (RunnablePrompt (prompt self)) (model self) in
      completion_of self c
        (sdk n {| chain := c;
                  input := [("tagsString", catalog); ("document", d)] |})
      :: completions_from self catalog sdk (S n) rest
  end.

(** The lines the [catch] block writes for a caught error. *)
Definition catch_lines (self : OpenAiLLM) (e : Error) : list ConsoleLine :=
  console_error_line "Error while invoking chain:" (message e)
  :: match classify self (message e) with
     | GenericFailure =>
         [console_error_line "Error while generating tags:" (message e)]
     | _ => []
     end.

(** The lines a call writes to the console, given the SDK's completion
    of its request. *)
Definition console_lines (self : OpenAiLLM) (c : Runnable) (o : Outcome)
  : list ConsoleLine :=
  match o with
  | Thrown e => catch_lines self e
  | Normal reply =>
      let response := resolve c (response_message reply) in
      console_debug_line "LLM Response: " response
      :: match formatOutputTags_of self response with
         | Normal _ => []
         | Thrown e => catch_lines self e
         end
  end.

(** An SDK that fails on the first request and answers the later ones. *)
Definition failing_once (msg : string) (reply : AIMessage)
  : nat -> Request -> Outcome :=
  fun n _ => match n with
             | O => Thrown (new_Error msg)
             | S _ => Normal reply
             end.

(* ================================================================= *)
(** * Properties *)

(** ** Substrings *)

Lemma prefix_append (p rest : string) :
  String.prefix p (p ++ rest)%string = true.
Proof.
  induction p as [|c p IH]; simpl.
  - now destruct rest.
  - destruct (ascii_dec c c) as [_|ne]; [exact IH | now elim ne].
Qed.

Lemma includes_prefix (s t : string) :
  String.prefix t s = true -> includes s t = true.
Proof.
  intros H. destruct s as [|c s]; cbn [includes]; rewrite H; reflexivity.
Qed.

Lemma includes_skip (c : ascii) (s t : string) :
  includes s t = true -> includes (String c s) t = true.
Proof.
  intros H. cbn [includes]. rewrite H.
  now destruct (String.prefix t (String c s)).
Qed.

Lemma includes_append_l (before s t : string) :
  includes s t = true -> includes (before ++ s)%string t = true.
Proof.
  intros H. induction before as [|c before IH]; simpl append.
  - exact H.
  - now apply includes_skip.
Qed.

Lemma includes_middle (before t after : string) :
  includes (before ++ t ++ after)%string t = true.
Proof.
  apply includes_append_l, includes_prefix, prefix_append.
Qed.

(** ** The prompt *)

Lemma parse_systemMessage :
  exists before after,
    FString.parse systemMessage
    = Some [literal before; variable "tagsString"; literal after].
Proof. do 2 eexists. vm_compute. reflexivity. Qed.

Lemma parse_humanMessage :
  exists before after,
    FString.parse humanMessage
    = Some [literal before; variable "document"; literal after].
Proof. do 2 eexists. vm_compute. reflexivity. Qed.

Lemma append_empty (s : string) : (s ++ EmptyString)%string = s.
Proof. induction s as [|c s IH]; simpl; [reflexivity | now rewrite IH]. Qed.

Lemma format_systemMessage :
  exists before after, forall tagsString documentText,
    FString.format systemMessage
      [("tagsString", tagsString); ("document", documentText)]
    = Some (before ++ tagsString ++ after)%string.
Proof.
  destruct parse_systemMessage as (before & after & E).
  exists before, after. intros tagsString documentText.
  unfold FString.format. rewrite E.
  cbn [interpolate lookup option_map]. simpl String.eqb.
  cbn iota. cbn [option_map]. now rewrite append_empty.
Qed.

Lemma format_humanMessage :
  exists before after, forall tagsString documentText,
    FString.format humanMessage
      [("tagsString", tagsString); ("document", documentText)]
    = Some (before ++ documentText ++ after)%string.
Proof.
  destruct parse_humanMessage as (before & after & E).
  exists before, after. intros tagsString documentText.
  unfold FString.format. rewrite E.
  cbn [interpolate lookup option_map]. simpl String.eqb.
  cbn iota. cbn [option_map]. now rewrite append_empty.
Qed.

(** The filled prompt is the fixed text of the two templates with the
    catalog and the document put in place of the placeholders. *)
Lemma formatMessages_getPrompt :
  exists b1 a1 b2 a2, forall tagsString documentText,
    formatMessages getPrompt
      [("tagsString", tagsString); ("document", documentText)]
    = Some [mkMessage system (b1 ++ tagsString ++ a1)%string;
            mkMessage human (b2 ++ documentText ++ a2)%string].
Proof.
  destruct format_systemMessage as (b1 & a1 & E1).
  destruct format_humanMessage as (b2 & a2 & E2).
  exists b1, a1, b2, a2. intros tagsString documentText.
  unfold getPrompt. cbn [formatMessages template template_role].
  now rewrite E1, E2.
Qed.

(** C2.  For every tag catalog and every document, filling the
    two-message template of [getPrompt] with them succeeds and yields a
    system message that contains the catalog text verbatim and a human
    message that contains the document text verbatim. *)
Theorem filled_prompt_contains_catalog_and_document
  (tagsString documentText : string) :
  exists sys hum,
    formatMessages getPrompt
      [("tagsString", tagsString); ("document", documentText)]
    = Some [mkMessage system sys; mkMessage human hum]
    /\ includes sys tagsString = true
    /\ includes hum documentText = true.
Proof.
  destruct formatMessages_getPrompt as (b1 & a1 & b2 & a2 & E).
  exists (b1 ++ tagsString ++ a1)%string, (b2 ++ documentText ++ a2)%string.
  split; [apply E | split; apply includes_middle].
Qed.

Example filled_prompt_sample :
  formatMessages [fromTemplate human humanMessage]
    [("tagsString", "#a #b"); ("document", "{x} }} text")]
  = Some [mkMessage human ("DOCUMENT:" ++ LF ++ "```{x} }} text```")%string].
Proof. reflexivity. Qed.

(** ** The catch block and the call as a whole *)

Ltac unfold_eff :=
  unfold Eff.try_catch, Eff.bind, Eff.ret, Eff.throw, Eff.get, Eff.modify,
    get_this, getTagsString, console_error, console_debug, invoke.

Ltac split_includes :=
  repeat match goal with
         | |- context [includes ?s ?t] => destruct (includes s t)
         end.

(** The [else if] chain throws what the table, read first match first,
    says. *)
Lemma generateTags_catch_throws (error : Error) (s : Machine) :
  fst (generateTags_catch error s)
  = Thrown (error_of (classify (this s) (message error))).
Proof.
  unfold generateTags_catch, classify, triggers, fires, guard,
    custom_endpoint_family, error_of.
  unfold_eff. cbn -[includes].
  destruct (baseURL (this s)); split_includes; reflexivity.
Qed.

(** The catch block writes to the console and nothing else. *)
Lemma generateTags_catch_frame (error : Error) (s : Machine) :
  this (snd (generateTags_catch error s)) = this s
  /\ sent (snd (generateTags_catch error s)) = sent s
  /\ tagCatalog (snd (generateTags_catch error s)) = tagCatalog s
  /\ endpoint (snd (generateTags_catch error s)) = endpoint s.
Proof.
  unfold generateTags_catch. unfold_eff. cbn -[includes].
  destruct (baseURL (this s)); split_includes; cbn; auto.
Qed.

(** The machine after the request of a call has been recorded. *)
Lemma generateTags_unfold (documentText : string) (s : Machine) :
  generateTags documentText s
  = let sent_once :=
      {| this := this s; tagCatalog := tagCatalog s;
         endpoint := endpoint s;
         sent := sent s ++ [request_of s documentText];
         console := console s |} in
    match remote_call s documentText with
    | Normal reply =>
        let response :=
          resolve (chain (request_of s documentText))
                  (response_message reply) in
        let logged :=
          {| this := this s; tagCatalog := tagCatalog s;
             endpoint := endpoint s;
             sent := sent s ++ [request_of s documentText];
             console := console s
                        ++ [console_debug_line "LLM Response: " response] |} in
        match formatOutputTags_of (this s) response with
        | Normal tags => (Normal tags, logged)
        | Thrown e => generateTags_catch e logged
        end
    | Thrown e => generateTags_catch e sent_once
    end.
Proof.
  unfold generateTags, remote_call, request_of. unfold_eff.
  unfold Eff.lift. cbn -[generateTags_catch formatOutputTags_of resolve].
  destruct (endpoint s (length (sent s)) _) as [reply|e]; [|reflexivity].
  now destruct (formatOutputTags_of (this s) _).
Qed.

Lemma generateTags_failure (documentText : string) (s : Machine) (e : Error) :
  remote_call s documentText = Thrown e ->
  fst (generateTags documentText s)
  = Thrown (error_of (classify (this s) (message e))).
Proof.
  intros H. rewrite generateTags_unfold, H. cbv zeta.
  now rewrite generateTags_catch_throws.
Qed.

(** Every path of a call leaves the instance, the catalog and the SDK
    alone and records the one request. *)
Lemma generateTags_frame_sent (documentText : string) (s : Machine) :
  this (snd (generateTags documentText s)) = this s
  /\ sent (snd (generateTags documentText s))
     = sent s ++ [request_of s documentText]
  /\ tagCatalog (snd (generateTags documentText s)) = tagCatalog s
  /\ endpoint (snd (generateTags documentText s)) = endpoint s.
Proof.
  rewrite generateTags_unfold. cbv zeta.
  destruct (remote_call s documentText) as [reply|e];
    [destruct (formatOutputTags_of (this s) _) as [l|e]; [now cbn|]|];
    match goal with
    | |- context [generateTags_catch ?e ?m] =>
        destruct (generateTags_catch_frame e m) as (-> & -> & -> & ->)
    end; now cbn.
Qed.

(** Exactly one request is sent by a call, whatever its completion. *)
Lemma generateTags_sent (documentText : string) (s : Machine) :
  sent (snd (generateTags documentText s))
  = sent s ++ [request_of s documentText].
Proof. apply generateTags_frame_sent. Qed.

Lemma generateTags_this (documentText : string) (s : Machine) :
  this (snd (generateTags documentText s)) = this s.
Proof. apply generateTags_frame_sent. Qed.

(** ** Reading the table *)

Lemma find_first {A} (f : A -> bool) (l : list A) (i : nat) (x : A) :
  nth_error l i = Some x ->
  f x = true ->
  (forall y, In y (firstn i l) -> f y = false) ->
  find f l = Some x.
Proof.
  revert i. induction l as [|a l IH]; intros [|i] Hn Hx Hbefore;
    simpl in Hn; try discriminate.
  - injection Hn as ->. simpl. now rewrite Hx.
  - simpl. rewrite (Hbefore a (or_introl eq_refl)).
    apply (IH i Hn Hx). intros y Hy. apply Hbefore. now right.
Qed.

Lemma find_none {A} (f : A -> bool) (l : list A) :
  (forall y, In y l -> f y = false) -> find f l = None.
Proof.
  induction l as [|a l IH]; intros H; simpl; [reflexivity|].
  rewrite (H a (or_introl eq_refl)). apply IH. intros y Hy. apply H. now right.
Qed.

Lemma custom_endpoint_family_iff (self : OpenAiLLM) :
  custom_endpoint_family self = true
  <-> baseURL self <> None
      /\ (includes (modelName (super self)) "gpt-4" = true
          \/ includes (modelName (super self)) "gpt-3.5-turbo" = true).
Proof.
  unfold custom_endpoint_family.
  rewrite andb_true_iff, orb_true_iff.
  destruct (baseURL self); intuition congruence.
Qed.

(** With none of the seven earlier substrings in the message, the last
    branch alone decides. *)
Lemma classify_connection_error (self : OpenAiLLM) (msg : string) :
  includes msg "Connection error" = true ->
  (forall t k, In (t, k) (firstn 7 triggers) -> includes msg t = false) ->
  classify self msg
  = if custom_endpoint_family self then UnreachableEndpoint
    else GenericFailure.
Proof.
  intros Hc Hbefore. unfold classify.
  destruct (custom_endpoint_family self) eqn:G.
  - rewrite (find_first _ triggers 7 ("Connection error", UnreachableEndpoint));
      try reflexivity.
    + unfold fires. cbn [fst snd guard]. now rewrite Hc, G.
    + intros [t k] Hy. unfold fires. cbn [fst snd].
      now rewrite (Hbefore t k Hy).
  - rewrite find_none; [reflexivity|].
    intros [t k] Hy. unfold fires. cbn [fst snd].
    change triggers
      with (firstn 7 triggers ++ [("Connection error", UnreachableEndpoint)])
      in Hy.
    apply in_app_or in Hy. destruct Hy as [Hy|[Hy|[]]].
    + now rewrite (Hbefore t k Hy).
    + injection Hy as <- <-. cbn [guard]. rewrite G. apply andb_false_r.
Qed.

Lemma error_of_injective (k k' : ErrorKind) :
  error_of k = error_of k' -> k = k'.
Proof. destruct k, k'; intros H; try reflexivity; discriminate H. Qed.

Lemma existsb_false_In {A} (f : A -> bool) (l : list A) :
  existsb f l = false -> forall y, In y l -> f y = false.
Proof.
  intros H y Hy. destruct (f y) eqn:E; [|reflexivity].
  rewrite <- H. symmetry. apply existsb_exists. now exists y.
Qed.

Lemma none_contained (msg : string) (l : list (string * ErrorKind)) :
  existsb (contains_trigger msg) l = false ->
  forall t k, In (t, k) l -> includes msg t = false.
Proof.
  intros H t k Hy. exact (existsb_false_In _ _ H (t, k) Hy).
Qed.

(** ** Error classification *)

(** C1 (as amended).  For every substring the [else if] chain of
    [generateTags] looks for, written in full as in [triggers], an error
    of the remote call whose message contains that substring and none of
    the substrings tested before it is re-thrown as the kind of that
    branch, with that kind's message; for the last branch
    ("Connection error") the instance must also pass the branch's extra
    condition. *)
Theorem trigger_rethrown_as_its_kind
  (s : Machine) (documentText : string) (e : Error)
  (i : nat) (t : string) (k : ErrorKind) :
  remote_call s documentText = Thrown e ->
  nth_error triggers i = Some (t, k) ->
  includes (message e) t = true ->
  guard (this s) k = true ->
  existsb (contains_trigger (message e)) (firstn i triggers) = false ->
  fst (generateTags documentText s) = Thrown (error_of k).
Proof.
  intros Hfail Hnth Hin Hguard Hbefore.
  rewrite (generateTags_failure _ _ _ Hfail). do 2 f_equal.
  unfold classify.
  rewrite (find_first _ triggers i (t, k) Hnth); [reflexivity| |].
  - unfold fires. cbn [fst snd]. now rewrite Hin, Hguard.
  - intros [t' k'] Hy. unfold fires. cbn [fst snd].
    now rewrite (none_contained _ _ Hbefore t' k' Hy).
Qed.

Lemma trigger_rethrown_as_its_kind_witness :
  fst (generateTags "some document"
         (boot (sample_instance true "gpt-4" None) "#osint"
            (failing "429 Rate limit reached for requests per min")))
  = Thrown (error_of RateLimited).
Proof.
  apply (trigger_rethrown_as_its_kind _ _
           (new_Error "429 Rate limit reached for requests per min")
           1 "Rate limit reached for requests" RateLimited);
    reflexivity.
Defined.

(** C1 as the spec words it fails: the chain looks for longer substrings
    than the table lists, so a message with just "Rate limit reached" is
    re-thrown as the generic failure; and as an earlier branch wins, a
    message with both "Incorrect API key" and "Invalid URL" is not
    re-thrown as the bad-endpoint kind. *)
Lemma listed_trigger_not_rethrown_as_its_kind :
  (In ("Rate limit reached", RateLimited) spec_table
   /\ includes "Rate limit reached" "Rate limit reached" = true
   /\ fst (generateTags "some document"
             (boot (sample_instance true "gpt-4" None) "#osint"
                (failing "Rate limit reached")))
      = Thrown (error_of GenericFailure)
   /\ error_of GenericFailure <> error_of RateLimited)
  /\
  (In ("Invalid URL", BadEndpoint) spec_table
   /\ includes "Incorrect API key; Invalid URL" "Invalid URL" = true
   /\ fst (generateTags "some document"
             (boot (sample_instance true "gpt-4" None) "#osint"
                (failing "Incorrect API key; Invalid URL")))
      = Thrown (error_of InvalidCredentials)
   /\ error_of InvalidCredentials <> error_of BadEndpoint).
Proof.
  repeat split; try reflexivity; try discriminate.
  - simpl. tauto.
  - simpl. tauto.
Qed.

(** C4.  The catch block tests the message against its substrings in the
    order of [triggers] and the first match wins: when the message of the
    caught error contains more than one of the substrings, the error
    thrown is the one of the earliest entry of [triggers] that the
    message contains. *)
Theorem first_matching_trigger_wins
  (s : Machine) (documentText : string) (e : Error) :
  remote_call s documentText = Thrown e ->
  2 <= length (filter (contains_trigger (message e)) triggers) ->
  exists t k,
    find (contains_trigger (message e)) triggers = Some (t, k)
    /\ fst (generateTags documentText s) = Thrown (error_of k).
Proof.
  intros Hfail. rewrite (generateTags_failure _ _ _ Hfail).
  unfold classify, triggers, fires, contains_trigger.
  cbn -[includes custom_endpoint_family Nat.le].
  split_includes; cbn -[custom_endpoint_family Nat.le]; intros Hmany;
    try (exfalso; lia); do 2 eexists; split; reflexivity.
Qed.

Lemma first_matching_trigger_wins_witness :
  exists t k,
    find (contains_trigger "Connection error. Invalid URL (Incorrect API key)")
      triggers = Some (t, k)
    /\ fst (generateTags "some document"
              (boot (sample_instance true "gpt-4" (Some "http://localhost:8080/v1"))
                 "#osint"
                 (failing "Connection error. Invalid URL (Incorrect API key)")))
       = Thrown (error_of k).
Proof.
  apply (first_matching_trigger_wins _ _
           (new_Error "Connection error. Invalid URL (Incorrect API key)")).
  - reflexivity.
  - vm_compute. lia.
Defined.

(** C5.  An error of the remote call whose message contains none of the
    substrings of the chain is re-thrown as the generic failure, with the
    message "Error while generating tags.". *)
Theorem unmatched_error_is_generic
  (s : Machine) (documentText : string) (e : Error) :
  remote_call s documentText = Thrown e ->
  existsb (contains_trigger (message e)) triggers = false ->
  fst (generateTags documentText s)
  = Thrown (new_Error "Error while generating tags.").
Proof.
  intros Hfail Hnone.
  rewrite (generateTags_failure _ _ _ Hfail). do 2 f_equal.
  unfold classify. rewrite find_none; [reflexivity|].
  intros [t k] Hy. unfold fires. cbn [fst snd].
  now rewrite (none_contained _ _ Hnone t k Hy).
Qed.

Lemma unmatched_error_is_generic_witness :
  fst (generateTags "some document"
         (boot (sample_instance true "gpt-4" None) "#osint"
            (failing "Some unrelated vendor text")))
  = Thrown (new_Error "Error while generating tags.").
Proof.
  apply (unmatched_error_is_generic _ _
           (new_Error "Some unrelated vendor text"));
    reflexivity.
Defined.

(** C6 (as amended).  An error of the remote call whose message contains
    "Connection error" and none of the seven substrings tested before it
    is re-thrown as the unreachable-endpoint kind if and only if a custom
    base URL is set ([baseURL] is not null) and the model name contains
    "gpt-4" or "gpt-3.5-turbo"; otherwise it is re-thrown as the generic
    failure. *)
Theorem connection_error_needs_custom_endpoint
  (s : Machine) (documentText : string) (e : Error) :
  remote_call s documentText = Thrown e ->
  includes (message e) "Connection error" = true ->
  existsb (contains_trigger (message e)) (firstn 7 triggers) = false ->
  (fst (generateTags documentText s) = Thrown (error_of UnreachableEndpoint)
   <-> baseURL (this s) <> None
       /\ (includes (modelName (super (this s))) "gpt-4" = true
           \/ includes (modelName (super (this s))) "gpt-3.5-turbo" = true))
  /\ (fst (generateTags documentText s) <> Thrown (error_of UnreachableEndpoint)
      -> fst (generateTags documentText s) = Thrown (error_of GenericFailure)).
Proof.
  intros Hfail Hc Hbefore.
  rewrite (generateTags_failure _ _ _ Hfail).
  rewrite (classify_connection_error _ _ Hc (none_contained _ _ Hbefore)).
  rewrite <- custom_endpoint_family_iff.
  destruct (custom_endpoint_family (this s)); split;
    try split; try reflexivity; try discriminate; intros H;
    try reflexivity; now elim H.
Qed.

Lemma connection_error_needs_custom_endpoint_witness :
  (fst (generateTags "some document"
          (boot (sample_instance true "gpt-3.5-turbo-0125"
                   (Some "http://localhost:8080/v1"))
             "#osint" (failing "Connection error.")))
   = Thrown (error_of UnreachableEndpoint)
   <-> Some "http://localhost:8080/v1" <> None
       /\ (includes "gpt-3.5-turbo-0125" "gpt-4" = true
           \/ includes "gpt-3.5-turbo-0125" "gpt-3.5-turbo" = true))
  /\ (fst (generateTags "some document"
             (boot (sample_instance true "gpt-3.5-turbo-0125"
                      (Some "http://localhost:8080/v1"))
                "#osint" (failing "Connection error.")))
      <> Thrown (error_of UnreachableEndpoint)
      -> fst (generateTags "some document"
                (boot (sample_instance true "gpt-3.5-turbo-0125"
                         (Some "http://localhost:8080/v1"))
                   "#osint" (failing "Connection error.")))
         = Thrown (error_of GenericFailure)).
Proof.
  apply (connection_error_needs_custom_endpoint
           (boot (sample_instance true "gpt-3.5-turbo-0125"
                    (Some "http://localhost:8080/v1"))
              "#osint" (failing "Connection error."))
           "some document" (new_Error "Connection error."));
    reflexivity.
Defined.

(** C6 as the spec words it fails: with a custom base URL and a gpt-4
    model, a message that contains "Connection error" and also
    "Invalid URL" is re-thrown as the bad-endpoint kind; and without a
    custom base URL, a message that contains "Connection error" and also
    "Incorrect API key" is re-thrown as invalid credentials, not as the
    generic failure. *)
Lemma connection_error_taken_by_earlier_branch :
  (includes "Connection error. Invalid URL" "Connection error" = true
   /\ custom_endpoint_family
        (sample_instance true "gpt-4" (Some "http://localhost:8080/v1")) = true
   /\ fst (generateTags "some document"
             (boot (sample_instance true "gpt-4" (Some "http://localhost:8080/v1"))
                "#osint" (failing "Connection error. Invalid URL")))
      = Thrown (error_of BadEndpoint)
   /\ error_of BadEndpoint <> error_of UnreachableEndpoint)
  /\
  (includes "Connection error. Incorrect API key" "Connection error" = true
   /\ custom_endpoint_family (sample_instance true "gpt-4" None) = false
   /\ fst (generateTags "some document"
             (boot (sample_instance true "gpt-4" None)
                "#osint" (failing "Connection error. Incorrect API key")))
      = Thrown (error_of InvalidCredentials)
   /\ error_of InvalidCredentials <> error_of GenericFailure).
Proof. repeat split; try reflexivity; discriminate. Qed.

(** C7.  A call of [generateTags] sends exactly one request, whatever the
    answer (no retry); and when the remote call fails, the call completes
    by throwing (it returns no tag list) one error, whose kind is one
    of the nine of [all_kinds] and whose message is the fixed message of
    that kind. *)
Theorem failure_is_terminal_and_classified
  (s : Machine) (documentText : string) :
  sent (snd (generateTags documentText s))
  = sent s ++ [request_of s documentText]
  /\ forall e, remote_call s documentText = Thrown e ->
       exists k, In k all_kinds
                 /\ fst (generateTags documentText s)
                    = Thrown (new_Error (user_message k)).
Proof.
  split; [apply generateTags_sent|].
  intros e Hfail. exists (classify (this s) (message e)). split.
  - destruct (classify (this s) (message e)); simpl; tauto.
  - exact (generateTags_failure _ _ _ Hfail).
Qed.

Lemma failure_is_terminal_and_classified_witness :
  exists k, In k all_kinds
            /\ fst (generateTags "some document"
                      (boot (sample_instance true "gpt-4" None) "#osint"
                         (failing "The engine is currently overloaded, please try again later")))
               = Thrown (new_Error (user_message k)).
Proof.
  apply (proj2 (failure_is_terminal_and_classified
                  (boot (sample_instance true "gpt-4" None) "#osint"
                     (failing "The engine is currently overloaded, please try again later"))
                  "some document")
           (new_Error "The engine is currently overloaded, please try again later")).
  reflexivity.
Defined.

(** C10.  The error re-thrown by [generateTags] depends on the message of
    the caught error, on [baseURL] and on the model name only: two calls,
    on any two machines and for any two documents, whose remote calls fail
    with the same message on instances with the same [baseURL] and model
    name throw the same error; and the message thrown is one of the nine
    constants of [user_message], a closed table that takes neither the
    vendor's text nor the document. *)
Theorem rethrown_error_depends_on_message_only
  (s1 s2 : Machine) (document1 document2 : string) (e1 e2 : Error) :
  remote_call s1 document1 = Thrown e1 ->
  remote_call s2 document2 = Thrown e2 ->
  message e1 = message e2 ->
  baseURL (this s1) = baseURL (this s2) ->
  modelName (super (this s1)) = modelName (super (this s2)) ->
  fst (generateTags document1 s1) = fst (generateTags document2 s2)
  /\ exists k,
       fst (generateTags document1 s1) = Thrown (new_Error (user_message k))
       /\ fst (generateTags document2 s2) = Thrown (new_Error (user_message k)).
Proof.
  intros H1 H2 Hmsg Hurl Hname.
  rewrite (generateTags_failure _ _ _ H1), (generateTags_failure _ _ _ H2).
  assert (E : classify (this s1) (message e1)
              = classify (this s2) (message e2)).
  { unfold classify, triggers, fires, guard, custom_endpoint_family.
    now rewrite Hmsg, Hurl, Hname. }
  rewrite E. split; [reflexivity|].
  now exists (classify (this s2) (message e2)).
Qed.

Lemma rethrown_error_depends_on_message_only_witness :
  fst (generateTags "first document"
         (boot (sample_instance true "gpt-4" (Some "http://localhost:8080/v1"))
            "#osint" (failing "Connection error.")))
  = fst (generateTags "another, longer document"
           (boot (sample_instance false "gpt-4" (Some "http://localhost:8080/v1"))
              "#networking #vendor" (failing "Connection error.")))
  /\ exists k,
       fst (generateTags "first document"
              (boot (sample_instance true "gpt-4" (Some "http://localhost:8080/v1"))
                 "#osint" (failing "Connection error.")))
       = Thrown (new_Error (user_message k))
       /\ fst (generateTags "another, longer document"
                 (boot (sample_instance false "gpt-4" (Some "http://localhost:8080/v1"))
                    "#networking #vendor" (failing "Connection error.")))
          = Thrown (new_Error (user_message k)).
Proof.
  apply (rethrown_error_depends_on_message_only _ _ _ _
           (new_Error "Connection error.") (new_Error "Connection error."));
    reflexivity.
Defined.

(** ** The instance *)

Lemma generateTags_each_this (documents : list string) (s : Machine) :
  this (snd (generateTags_each documents s)) = this s.
Proof.
  revert s. induction documents as [|d rest IH]; intros s; simpl.
  - reflexivity.
  - destruct (generateTags d s) as [c s'] eqn:E1.
    destruct (generateTags_each rest s') as [cs s''] eqn:E2. simpl.
    change s'' with (snd (cs, s'')). rewrite <- E2, IH.
    change s' with (snd (c, s')). rewrite <- E1. apply generateTags_this.
Qed.

(** C9.  A call of [generateTags], whether it returns a tag list or
    throws, leaves the fields [baseURL], [prompt] and [model] of the
    instance as they were; so does any sequence of calls, and the prompt
    and the model stay the ones set at construction. *)
Theorem generateTags_leaves_instance_unchanged
  (s : Machine) (documentText : string) (documents : list string) :
  (baseURL (this (snd (generateTags documentText s))) = baseURL (this s)
   /\ prompt (this (snd (generateTags documentText s))) = prompt (this s)
   /\ model (this (snd (generateTags documentText s))) = model (this s))
  /\ this (snd (generateTags_each documents s)) = this s.
Proof.
  rewrite generateTags_this, generateTags_each_this. repeat split.
Qed.

Lemma getModel_accepted
  (rejects : ChatOpenAI -> option Error) (tool : StructuredTool)
  (this_super : LLM) (this_baseURL : option string) (r : Runnable) :
  getModel rejects tool this_super this_baseURL = Normal r ->
  let fields :=
    {| fields_modelName := modelId (modelInfo this_super);
       openAIApiKey := apiKey this_super;
       temperature := 0.0;
       configuration := {| config_baseURL := this_baseURL;
                           timeout := 10000 |} |} in
  r = if toolUse (modelInfo this_super)
      then RunnableSequence
             (RunnableBinding fields [tool]
                {| type := "function"; function_name := name tool |})
             (JsonOutputKeyToolsParser (name tool) true)
      else RunnableModel fields.
Proof.
  intros H. cbv zeta. unfold getModel, new_ChatOpenAI in H.
  destruct (rejects _) as [error|].
  - destruct (includes (message error) _); discriminate H.
  - destruct (toolUse (modelInfo this_super)); cbn in H;
      now injection H as <-.
Qed.

(** C8.  Every model that [getModel] constructs, for every model
    identifier and API key of the base class and every base URL, is
    configured with temperature 0.0 and a request timeout of 10000
    milliseconds; the runnable returned calls that model and no other. *)
Theorem model_temperature_and_timeout_fixed
  (rejects : ChatOpenAI -> option Error) (tool : StructuredTool)
  (this_super : LLM) (this_baseURL : option string) (r : Runnable) :
  getModel rejects tool this_super this_baseURL = Normal r ->
  exists m,
    chat_models r = [m]
    /\ (temperature m == 0)%Q
    /\ timeout (configuration m) = 10000%Z
    /\ fields_modelName m = modelId (modelInfo this_super)
    /\ openAIApiKey m = apiKey this_super
    /\ config_baseURL (configuration m) = this_baseURL.
Proof.
  intros H. apply getModel_accepted in H. cbv zeta in H. subst r.
  eexists. split.
  - destruct (toolUse (modelInfo this_super)); reflexivity.
  - cbn. repeat split; reflexivity.
Qed.

Lemma model_temperature_and_timeout_fixed_witness :
  exists m,
    chat_models (model (sample_instance true "gpt-4o" None)) = [m]
    /\ (temperature m == 0)%Q
    /\ timeout (configuration m) = 10000%Z
    /\ fields_modelName m = "gpt-4o"
    /\ openAIApiKey m = "sk-test"
    /\ config_baseURL (configuration m) = None.
Proof.
  apply (model_temperature_and_timeout_fixed sample_rejects sample_tool
           (sample_LLM_constructor true "gpt-4o" "sk-test") None).
  reflexivity.
Defined.

Lemma new_OpenAiLLM_fields
  (rejects : ChatOpenAI -> option Error) (tool : StructuredTool)
  (LLM_constructor : string -> string -> LLM)
  (id key : string) (url : option string) (o : OpenAiLLM) :
  new_OpenAiLLM rejects tool LLM_constructor id key url = Normal o ->
  super o = LLM_constructor id key
  /\ baseURL o = url
  /\ prompt o = getPrompt
  /\ getModel rejects tool (LLM_constructor id key) url = Normal (model o).
Proof.
  unfold new_OpenAiLLM.
  destruct (getModel rejects tool (LLM_constructor id key) url) as [r|e];
    intros H; [|discriminate H].
  now injection H as <-.
Qed.

(** The prompt that a constructed instance sends is the filled template
    of C2, with the catalog read at the time of the call. *)
Lemma generateTags_sends_filled_prompt
  (s : Machine) (documentText : string) :
  prompt (this s) = getPrompt ->
  exists sys hum,
    formatMessages (prompt (this s)) (input (request_of s documentText))
    = Some [mkMessage system sys; mkMessage human hum]
    /\ includes sys (tagCatalog s) = true
    /\ includes hum documentText = true.
Proof.
  intros ->. destruct formatMessages_getPrompt as (b1 & a1 & b2 & a2 & E).
  exists (b1 ++ tagCatalog s ++ a1)%string, (b2 ++ documentText ++ a2)%string.
  split; [apply E | split; apply includes_middle].
Qed.

Lemma generateTags_completion (documentText : string) (s : Machine) :
  fst (generateTags documentText s)
  = completion_of (this s) (chain (request_of s documentText))
      (remote_call s documentText).
Proof.
  rewrite generateTags_unfold. cbv zeta. unfold completion_of, rethrown.
  destruct (remote_call s documentText) as [reply|e].
  - destruct (formatOutputTags_of (this s) _) as [l|e]; [reflexivity|].
    now rewrite generateTags_catch_throws.
  - now rewrite generateTags_catch_throws.
Qed.

(** The chain of an instance built by the constructor, by the flag. *)
Lemma constructed_chain
  (rejects : ChatOpenAI -> option Error) (tool : StructuredTool)
  (LLM_constructor : string -> string -> LLM)
  (id key : string) (url : option string)
  (s : Machine) (documentText : string) :
  new_OpenAiLLM rejects tool LLM_constructor id key url = Normal (this s) ->
  exists fields,
    super (this s) = LLM_constructor id key
    /\ chain (request_of s documentText)
       = RunnableSequence (RunnablePrompt getPrompt)
           (if toolUse (modelInfo (LLM_constructor id key))
            then RunnableSequence
                   (RunnableBinding fields [tool]
                      {| type := "function"; function_name := name tool |})
                   (JsonOutputKeyToolsParser (name tool) true)
            else RunnableModel fields).
Proof.
  intros Hnew.
  destruct (new_OpenAiLLM_fields _ _ _ _ _ _ _ Hnew) as (Hs & _ & Hp & Hm).
  apply getModel_accepted in Hm. cbv zeta in Hm.
  eexists. split; [exact Hs|].
  unfold request_of, pipe. cbn [chain]. rewrite Hp, Hm. reflexivity.
Qed.



(* ================================================================= *)
(** * Further properties of the class *)

(** ** What the table never does *)

(** A kind other than the generic one is decided by an entry of the table
    whose substring is in the message and whose condition holds. *)
Lemma classify_sound (self : OpenAiLLM) (msg : string) (k : ErrorKind) :
  classify self msg = k ->
  k <> GenericFailure ->
  exists t, In (t, k) triggers
            /\ includes msg t = true
            /\ guard self k = true.
Proof.
  unfold classify. intros H Hk.
  destruct (find (fires self msg) triggers) as [[t k']|] eqn:F.
  - subst k'. apply find_some in F. destruct F as [Hin Hf].
    unfold fires in Hf. cbn [fst snd] in Hf.
    apply andb_true_iff in Hf. exists t. tauto.
  - now elim Hk.
Qed.

Lemma thrown_error_of (k k' : ErrorKind) :
  @Thrown (list string) (error_of k) = Thrown (error_of k') -> k = k'.
Proof. intros H. apply error_of_injective. congruence. Qed.

(** X1.  A labeled kind is never thrown without cause: when [generateTags]
    re-throws a failure of the remote call as a kind other than the
    generic one, the message of the caught error contains the substring of
    that kind's branch, and for the unreachable-endpoint kind the instance
    has a custom base URL and a model name of the two families. *)
Theorem labeled_kind_needs_its_trigger
  (s : Machine) (documentText : string) (e : Error) (k : ErrorKind) :
  remote_call s documentText = Thrown e ->
  fst (generateTags documentText s) = Thrown (error_of k) ->
  k <> GenericFailure ->
  exists t, In (t, k) triggers
            /\ includes (message e) t = true
            /\ guard (this s) k = true.
Proof.
  intros Hfail Hthrown Hk.
  rewrite (generateTags_failure _ _ _ Hfail) in Hthrown.
  apply thrown_error_of in Hthrown.
  now apply classify_sound.
Qed.

Lemma labeled_kind_needs_its_trigger_witness :
  exists t, In (t, InputTooLarge) triggers
            /\ includes "400 Please reduce the length of the messages." t = true
            /\ guard (sample_instance true "gpt-4" None) InputTooLarge = true.
Proof.
  apply (labeled_kind_needs_its_trigger
           (boot (sample_instance true "gpt-4" None) "#osint"
              (failing "400 Please reduce the length of the messages."))
           "some document"
           (new_Error "400 Please reduce the length of the messages.")
           InputTooLarge).
  - reflexivity.
  - reflexivity.
  - discriminate.
Defined.

(** X2.  Without a custom base URL, or with a model name that contains neither
    "gpt-4" nor "gpt-3.5-turbo", no call of [generateTags] ends in the
    unreachable-endpoint error, whatever the SDK answers. *)
Theorem unreachable_endpoint_needs_custom_endpoint
  (s : Machine) (documentText : string) :
  baseURL (this s) = None
  \/ (includes (modelName (super (this s))) "gpt-4" = false
      /\ includes (modelName (super (this s))) "gpt-3.5-turbo" = false) ->
  fst (generateTags documentText s) <> Thrown (error_of UnreachableEndpoint).
Proof.
  intros Hno Hthrown. rewrite generateTags_completion in Hthrown.
  unfold completion_of, rethrown in Hthrown.
  assert (Hk : exists msg, classify (this s) msg = UnreachableEndpoint).
  { destruct (remote_call s documentText) as [reply|e].
    - destruct (formatOutputTags_of (this s) _) as [l|e];
        [discriminate Hthrown|].
      exists (message e). now apply thrown_error_of in Hthrown.
    - exists (message e). now apply thrown_error_of in Hthrown. }
  clear Hthrown. destruct Hk as [msg Hthrown].
  apply classify_sound in Hthrown; [|discriminate].
  destruct Hthrown as (t & _ & _ & G). cbn [guard] in G.
  apply custom_endpoint_family_iff in G. destruct G as [Hurl Hfam].
  destruct Hno as [Hnone|[H4 H35]]; [now elim Hurl|].
  rewrite H4, H35 in Hfam. destruct Hfam; discriminate.
Qed.

Lemma unreachable_endpoint_needs_custom_endpoint_witness :
  fst (generateTags "some document"
         (boot (sample_instance true "gpt-4" None) "#osint"
            (failing "Connection error.")))
  <> Thrown (error_of UnreachableEndpoint).
Proof.
  apply (unreachable_endpoint_needs_custom_endpoint
           (boot (sample_instance true "gpt-4" None) "#osint"
              (failing "Connection error."))
           "some document").
  left. reflexivity.
Defined.

(** X3.  No branch of the chain is shadowed by an earlier one: for every entry
    of the table, an error whose message is exactly the entry's substring
    is re-thrown as the entry's kind (for the last entry, on an instance
    that passes its extra condition). *)
Theorem every_branch_is_reachable
  (s : Machine) (documentText : string)
  (i : nat) (t : string) (k : ErrorKind) :
  nth_error triggers i = Some (t, k) ->
  remote_call s documentText = Thrown (new_Error t) ->
  guard (this s) k = true ->
  fst (generateTags documentText s) = Thrown (error_of k).
Proof.
  intros Hnth Hfail Hguard.
  rewrite (generateTags_failure _ _ _ Hfail). do 2 f_equal.
  unfold classify. cbn [message].
  rewrite (find_first _ triggers i (t, k) Hnth); [reflexivity| |].
  - unfold fires. cbn [fst snd]. rewrite Hguard, andb_true_r.
    apply includes_prefix.
    rewrite <- (append_empty t) at 2. apply prefix_append.
  - intros y Hy. unfold fires.
    enough (E : includes t (fst y) = false) by now rewrite E.
    do 8 (destruct i as [|i];
          [injection Hnth as <- <-;
           repeat (destruct Hy as [<-|Hy]; [reflexivity|]); destruct Hy|];
          cbn [nth_error] in Hnth).
    now destruct i.
Qed.

Lemma every_branch_is_reachable_witness :
  fst (generateTags "some document"
         (boot (sample_instance true "gpt-4" (Some "http://localhost:8080/v1"))
            "#osint" (failing "Connection error")))
  = Thrown (error_of UnreachableEndpoint).
Proof.
  apply (every_branch_is_reachable
           (boot (sample_instance true "gpt-4" (Some "http://localhost:8080/v1"))
              "#osint" (failing "Connection error"))
           "some document" 7 "Connection error" UnreachableEndpoint);
    reflexivity.
Defined.

(** ** The console *)

Lemma generateTags_catch_console (error : Error) (s : Machine) :
  console (snd (generateTags_catch error s))
  = console s ++ catch_lines (this s) error.
Proof.
  unfold generateTags_catch, catch_lines, classify, triggers, fires, guard,
    custom_endpoint_family.
  unfold_eff. cbn -[includes].
  destruct (baseURL (this s)); split_includes; cbn;
    rewrite <- ?app_assoc; reflexivity.
Qed.

(** X4.  The vendor's text is not lost: whatever is caught inside the
    [try] block, be it the error of the remote call or an error of
    reading the response and formatting its tags, has its message
    written to the console, once under "Error while invoking chain:" and,
    when it is re-thrown as the generic failure, once more under
    "Error while generating tags:".  When the chain resolves, what it
    resolved to is written first, under "LLM Response: ".  Nothing else
    is written. *)
Theorem console_after_call (s : Machine) (documentText : string) :
  console (snd (generateTags documentText s))
  = console s
    ++ console_lines (this s) (chain (request_of s documentText))
         (remote_call s documentText).
Proof.
  rewrite generateTags_unfold. cbv zeta. unfold console_lines.
  destruct (remote_call s documentText) as [reply|e].
  - destruct (formatOutputTags_of (this s) _) as [l|e]; [reflexivity|].
    rewrite generateTags_catch_console. cbn [console this].
    now rewrite <- app_assoc.
  - now rewrite generateTags_catch_console.
Qed.

(** ** Calls one after the other *)

Lemma generateTags_frame (documentText : string) (s : Machine) :
  this (snd (generateTags documentText s)) = this s
  /\ tagCatalog (snd (generateTags documentText s)) = tagCatalog s
  /\ endpoint (snd (generateTags documentText s)) = endpoint s
  /\ length (sent (snd (generateTags documentText s))) = S (length (sent s)).
Proof.
  destruct (generateTags_frame_sent documentText s) as (Ht & Hs & Hc & He).
  rewrite Hs, length_app, Nat.add_1_r. auto.
Qed.

(** X5.  Calls do not interfere: in a sequence of calls, the completion
    of each call is what the SDK's completion of that call's own request
    gives: the list that [formatOutputTags] returns for what the chain
    resolved to, or the classified error for whatever was thrown inside
    the [try] block.  A failed call leaves nothing behind that makes a
    later call fail. *)
Theorem calls_are_independent (documents : list string) (s : Machine) :
  fst (generateTags_each documents s)
  = completions_from (this s) (tagCatalog s) (endpoint s)
      (length (sent s)) documents.
Proof.
  revert s. induction documents as [|d rest IH]; intros s.
  - reflexivity.
  - cbn [generateTags_each completions_from].
    pose proof (generateTags_completion d s) as Hc.
    destruct (generateTags_frame d s) as (Ht & Hcat & Hep & Hlen).
    destruct (generateTags d s) as [c s'].
    specialize (IH s').
    destruct (generateTags_each rest s') as [cs s''].
    cbn [fst snd] in *. subst c.
    now rewrite IH, Ht, Hcat, Hep, Hlen.
Qed.

Example failure_then_success :
  fst (generateTags_each ["first"; "second"]
         (boot (sample_instance true "gpt-4" None) "#osint"
            (failing_once "Rate limit reached for requests"
               sample_tool_reply)))
  = [Thrown (error_of RateLimited);
     Normal ["#osint"; "#networking"; "#vendor"]].
Proof. reflexivity. Qed.

(** X6.  No retry and no batching, over any number of calls: a sequence of
    calls sends exactly one request per document, in the order of the
    documents, each made of the instance's prompt piped into its model
    and of the catalog and that document as input values; and it yields
    one completion per document. *)
Theorem one_request_per_document (documents : list string) (s : Machine) :
  sent (snd (generateTags_each documents s))
  = sent s ++ map (request_of s) documents
  /\ length (fst (generateTags_each documents s)) = length documents.
Proof.
  revert s. induction documents as [|d rest IH]; intros s.
  - cbn. now rewrite app_nil_r.
  - cbn [generateTags_each map length].
    pose proof (generateTags_sent d s) as Hs.
    destruct (generateTags_frame d s) as (Ht & Hcat & _ & _).
    destruct (generateTags d s) as [c s'].
    destruct (IH s') as [IH1 IH2].
    destruct (generateTags_each rest s') as [cs s''].
    cbn [fst snd length] in *. split; [|now rewrite IH2].
    rewrite IH1, Hs, <- app_assoc. cbn [app]. do 2 f_equal.
    apply map_ext. intros d'. unfold request_of. now rewrite Ht, Hcat.
Qed.

(** ** The prompt, in full *)

Lemma parse_humanMessage_nodes :
  FString.parse humanMessage
  = Some [literal ("DOCUMENT:" ++ LF ++ "```")%string;
          variable "document"; literal "```"].
Proof. reflexivity. Qed.

(** X7.  The filled prompt has exactly two messages, the system message first.
    The human message is "DOCUMENT:", a line feed and the document between
    two fences of three backticks, the document put in as it is, braces
    included; the system message is the catalog between two fixed texts
    and does not depend on the document. *)
Theorem filled_prompt_shape :
  exists before after, forall tagsString documentText,
    formatMessages getPrompt
      [("tagsString", tagsString); ("document", documentText)]
    = Some [mkMessage system (before ++ tagsString ++ after)%string;
            mkMessage human
              ("DOCUMENT:" ++ LF ++ "```" ++ documentText ++ "```")%string].
Proof.
  destruct format_systemMessage as (before & after & E).
  exists before, after. intros tagsString documentText.
  unfold getPrompt. cbn [formatMessages template template_role].
  rewrite E. unfold FString.format. rewrite parse_humanMessage_nodes.
  cbn [interpolate lookup option_map]. simpl String.eqb. cbn iota.
  cbn [option_map]. rewrite append_empty. reflexivity.
Qed.

(** ** The constructor *)

Example constructor_without_key :
  new_OpenAiLLM sample_rejects sample_tool (sample_LLM_constructor true)
    "gpt-4" EmptyString None
  = Thrown (new_Error "Incorrect OpenAI API key. Please check your API key.").
Proof. reflexivity. Qed.

(** X9.  An instance built by the constructor without a base URL never
    reports an unreachable endpoint, and one built with a base URL and a
    model name of the gpt-4 or gpt-3.5-turbo family reports a bare
    "Connection error" as one: the base URL that decides is the one given
    to the constructor. *)
Theorem constructed_base_url_decides
  (rejects : ChatOpenAI -> option Error) (tool : StructuredTool)
  (LLM_constructor : string -> string -> LLM)
  (id key : string) (url : option string)
  (s : Machine) (documentText : string) :
  new_OpenAiLLM rejects tool LLM_constructor id key url = Normal (this s) ->
  remote_call s documentText = Thrown (new_Error "Connection error") ->
  fst (generateTags documentText s)
  = Thrown (error_of
      (match url with
       | None => GenericFailure
       | Some _ =>
           if includes (modelName (LLM_constructor id key)) "gpt-4"
              || includes (modelName (LLM_constructor id key)) "gpt-3.5-turbo"
           then UnreachableEndpoint else GenericFailure
       end)).
Proof.
  intros Hnew Hfail.
  destruct (new_OpenAiLLM_fields _ _ _ _ _ _ _ Hnew) as (Hs & Hu & _ & _).
  rewrite (generateTags_failure _ _ _ Hfail). do 2 f_equal. cbn [message].
  rewrite classify_connection_error.
  - unfold custom_endpoint_family. rewrite Hs, Hu.
    destruct url; [|reflexivity].
    now destruct (includes _ "gpt-4" || includes _ "gpt-3.5-turbo").
  - reflexivity.
  - intros t k Hy.
    repeat (destruct Hy as [Hy|Hy]; [injection Hy as <- <-; reflexivity|]).
    destruct Hy.
Qed.

Lemma constructed_base_url_decides_witness :
  fst (generateTags "some document"
         (boot (sample_instance true "gpt-4" None) "#osint"
            (failing "Connection error")))
  = Thrown (error_of GenericFailure).
Proof.
  apply (constructed_base_url_decides sample_rejects sample_tool
           (sample_LLM_constructor true) "gpt-4" "sk-test" None
           (boot (sample_instance true "gpt-4" None) "#osint"
              (failing "Connection error"))
           "some document");
    reflexivity.
Defined.

(** ** The tool path *)

(** X10.  On an instance built by the constructor for a model whose
    tool-use flag is true, a reply that calls the declared function makes
    the call complete as [formatOutputTags] does on the [tags] and
    [newTags] of the first such call's arguments: its list is returned,
    its error is re-thrown through the catch block.  Calls of other
    functions and later calls of the declared one are not looked at. *)
Theorem tool_path_formats_first_call
  (rejects : ChatOpenAI -> option Error) (tool : StructuredTool)
  (LLM_constructor : string -> string -> LLM)
  (id key : string) (url : option string)
  (s : Machine) (documentText : string) (reply : AIMessage)
  (call : ToolCall) (more : list ToolCall) :
  new_OpenAiLLM rejects tool LLM_constructor id key url = Normal (this s) ->
  toolUse (modelInfo (LLM_constructor id key)) = true ->
  remote_call s documentText = Normal reply ->
  filter (fun c => String.eqb (call_name c) (name tool)) (tool_calls reply)
  = call :: more ->
  fst (generateTags documentText s)
  = match formatOutputTags (LLM_constructor id key)
            (tags (call_args call)) (newTags (call_args call)) with
    | Normal l => Normal l
    | Thrown e => Thrown (error_of (classify (this s) (message e)))
    end.
Proof.
  intros Hnew Hflag Hreply Hcalls.
  destruct (constructed_chain _ _ _ _ _ _ _ documentText Hnew)
    as (fields & Hs & Hc).
  rewrite generateTags_completion, Hreply, Hc, Hflag.
  unfold completion_of, rethrown, formatOutputTags_of.
  cbn [resolve]. rewrite Hcalls. cbn [property]. now rewrite Hs.
Qed.

Lemma tool_path_formats_first_call_witness :
  fst (generateTags "some document"
         (boot (sample_instance true "gpt-4" None) "#osint"
            (answering sample_tool_reply)))
  = Normal ["#osint"; "#networking"; "#vendor"].
Proof.
  apply (tool_path_formats_first_call sample_rejects sample_tool
           (sample_LLM_constructor true) "gpt-4" "sk-test" None
           (boot (sample_instance true "gpt-4" None) "#osint"
              (answering sample_tool_reply))
           "some document" sample_tool_reply
           {| call_name := "tagDocument";
              call_args := {| tags := array ["#osint"];
                              newTags := array ["#networking"; "#vendor"] |} |}
           []);
    reflexivity.
Defined.

(** X11.  On such an instance, a reply that does not call the declared
    function does not give an empty list: the chain resolves to
    [undefined], reading [response.tags] throws inside the [try] block,
    and the call ends in the generic failure, whatever the base class's
    [formatOutputTags] is. *)
Theorem tool_path_without_call_fails
  (rejects : ChatOpenAI -> option Error) (tool : StructuredTool)
  (LLM_constructor : string -> string -> LLM)
  (id key : string) (url : option string)
  (s : Machine) (documentText : string) (reply : AIMessage) :
  new_OpenAiLLM rejects tool LLM_constructor id key url = Normal (this s) ->
  toolUse (modelInfo (LLM_constructor id key)) = true ->
  remote_call s documentText = Normal reply ->
  filter (fun c => String.eqb (call_name c) (name tool)) (tool_calls reply)
  = [] ->
  fst (generateTags documentText s)
  = Thrown (new_Error "Error while generating tags.").
Proof.
  intros Hnew Hflag Hreply Hcalls.
  destruct (constructed_chain _ _ _ _ _ _ _ documentText Hnew)
    as (fields & Hs & Hc).
  rewrite generateTags_completion, Hreply, Hc, Hflag.
  unfold completion_of, rethrown, formatOutputTags_of.
  cbn [resolve]. rewrite Hcalls. reflexivity.
Qed.

Lemma tool_path_without_call_fails_witness :
  fst (generateTags "some document"
         (boot (sample_instance true "gpt-4" None) "#osint"
            (answering (sample_text_reply "#osint #vendor"))))
  = Thrown (new_Error "Error while generating tags.").
Proof.
  apply (tool_path_without_call_fails sample_rejects sample_tool
           (sample_LLM_constructor true) "gpt-4" "sk-test" None
           (boot (sample_instance true "gpt-4" None) "#osint"
              (answering (sample_text_reply "#osint #vendor")))
           "some document" (sample_text_reply "#osint #vendor"));
    reflexivity.
Defined.
